(** * cat/routes/websocket.py: the WebSocket relay of the core

    A shallow embedding of [ConnectionManager], of the two per-connection
    loops ([receive_message], [check_messages]) and of the supervising
    endpoint ([websocket_endpoint]), followed by the properties of the relay
    that can be read off this embedding.

    Python objects are modelled as follows.
    - [manager.active_connections : Dict[str, WebSocket]] is an
      insertion-ordered association list from [string] to [WebSocket].
    - [ccat.ws_messages] is an association list from [string] to a FIFO
      queue (a list, head = oldest item).
    - A subscript [d[k]] is evaluated with whatever object the caller passes;
      the callers of this module pass either a [str] or a WebSocket object,
      hence the type [key].
    - Awaited calls are ordinary monadic steps; a coroutine that waits for an
      input which never arrives ends in [Blocked].
    - Everything the relay does to the outside (handshake, frames written,
      log lines) is appended to the [wire] component of the state.
    - The endpoint is embedded over any implementation of
      [asyncio.gather]; where the fate of the two tasks matters,
      [gather_tasks] follows the documented behaviour of the library and
      keeps the state of each task. *)

From Stdlib Require Import List String Bool Arith Lia.
Import ListNotations.
Open Scope string_scope.
Open Scope list_scope.

(** ** Python values *)

(** A WebSocket object, identified by its object identity. *)
Definition WebSocket := nat.

(** What the call sites of this module put between the brackets of a
    subscript: a [str] identity or a WebSocket object. *)
Inductive key :=
| KStr (s : string)
| KObj (w : WebSocket).

(** JSON payloads: opaque text, or a flat dictionary such as the error
    report built by the endpoint. *)
Inductive json :=
| JText (s : string)
| JDict (fields : list (string * string)).

(** Exceptions.  [PyException name description] stands for any other
    subclass of [Exception] (agent failures, transport errors);
    [CancelledError] derives from [BaseException] only. *)
Inductive exn :=
| KeyError (k : key)
| AttributeError (description : string)
| WebSocketDisconnect
| CancelledError
| PyException (name description : string).

Definition is_WebSocketDisconnect (e : exn) : bool :=
  match e with WebSocketDisconnect => true | _ => false end.

(** [isinstance(e, Exception)] *)
Definition is_Exception (e : exn) : bool :=
  match e with CancelledError => false | _ => true end.

(** [type(e).__name__] *)
Definition exn_name (e : exn) : string :=
  match e with
  | KeyError _ => "KeyError"
  | AttributeError _ => "AttributeError"
  | WebSocketDisconnect => "WebSocketDisconnect"
  | CancelledError => "CancelledError"
  | PyException name _ => name
  end.

Definition repr_key (k : key) : string :=
  match k with
  | KStr s => ("'" ++ s ++ "'")%string
  | KObj _ => "<starlette.websockets.WebSocket object>"
  end.

(** [str(e)] *)
Definition exn_str (e : exn) : string :=
  match e with
  | KeyError k => repr_key k
  | AttributeError d => d
  | WebSocketDisconnect => ""
  | CancelledError => ""
  | PyException _ d => d
  end.

(** ** Dictionaries *)

Module Dict.

Definition t (V : Type) := list (string * V).

Fixpoint get {V} (d : t V) (k : string) : option V :=
  match d with
  | [] => None
  | (k', v) :: d' => if String.eqb k k' then Some v else get d' k
  end.

(** Drops the entry stored under [k]. *)
Fixpoint remove {V} (d : t V) (k : string) : t V :=
  match d with
  | [] => []
  | (k', v) :: d' =>
      if String.eqb k k' then remove d' k else (k', v) :: remove d' k
  end.

(** Stores [v] under an existing key [k], at the position the key has. *)
Fixpoint replace {V} (d : t V) (k : string) (v : V) : t V :=
  match d with
  | [] => []
  | (k', v') :: d' =>
      if String.eqb k k' then (k', v) :: d' else (k', v') :: replace d' k v
  end.

(** [d.values()], in insertion order. *)
Definition values {V} (d : t V) : list V := map snd d.

(** [d[k]]: a WebSocket object is never equal to a [str] key. *)
Definition getitem {V} (d : t V) (k : key) : option V :=
  match k with
  | KStr s => get d s
  | KObj _ => None
  end.

(** [del d[k]]: [None] stands for the [KeyError]. *)
Definition delitem {V} (d : t V) (k : key) : option (t V) :=
  match k with
  | KStr s => match get d s with
              | Some _ => Some (remove d s)
              | None => None
              end
  | KObj _ => None
  end.

End Dict.

(** ** State, effects and outcomes *)

Inductive event :=
| EvAccept (w : WebSocket)
| EvSendJson (w : WebSocket) (m : json)
| EvLogInfo (text : string)
| EvLogError (e : exn)
| EvPrintExc.

Record state := mkState {
  active_connections : Dict.t WebSocket;   (* manager.active_connections *)
  ws_messages : Dict.t (list json);        (* ccat.ws_messages *)
  wire : list event                        (* oldest first *)
}.

Definition emit (ev : event) (s : state) : state :=
  mkState (active_connections s) (ws_messages s) (wire s ++ [ev]).

Definition set_active_connections (d : Dict.t WebSocket) (s : state) : state :=
  mkState d (ws_messages s) (wire s).

Definition set_ws_messages (q : Dict.t (list json)) (s : state) : state :=
  mkState (active_connections s) q (wire s).

Inductive outcome (A : Type) :=
| Return (a : A)
| Raise (e : exn)
| Blocked      (* suspended on an await that is never resumed *)
| OutOfFuel.     (* the model ran out of fuel *)
Arguments Return {A} a.
Arguments Raise {A} e.
Arguments Blocked {A}.
Arguments OutOfFuel {A}.

Definition M (A : Type) := state -> state * outcome A.

Definition ret {A} (a : A) : M A := fun s => (s, Return a).
Definition raise {A} (e : exn) : M A := fun s => (s, Raise e).
Definition blocked {A} : M A := fun s => (s, Blocked).
Definition out_of_fuel {A} : M A := fun s => (s, OutOfFuel).

Definition bind {A B} (m : M A) (k : A -> M B) : M B :=
  fun s =>
    match m s with
    | (s1, Return a) => k a s1
    | (s1, Raise e) => (s1, Raise e)
    | (s1, Blocked) => (s1, Blocked)
    | (s1, OutOfFuel) => (s1, OutOfFuel)
    end.

Notation "x <- m ;; k" := (bind m (fun x => k))
  (at level 61, m at next level, right associativity).
Notation "m ;; k" := (bind m (fun _ => k))
  (at level 61, right associativity).

Definition tell (ev : event) : M unit := fun s => (emit ev s, Return tt).

(** [try: body  except ...: handler]; [handler e = None] when no clause
    matches [e]. *)
Definition try_except {A} (body : M A) (handler : exn -> option (M A)) : M A :=
  fun s =>
    match body s with
    | (s1, Raise e) =>
        match handler e with
        | Some h => h s1
        | None => (s1, Raise e)
        end
    | r => r
    end.

(** [try: body  finally: fin].  The [finally] suite runs once the body has
    returned or raised; an exception of the suite replaces the one in
    flight. *)
Definition try_finally {A} (body : M A) (fin : M unit) : M A :=
  fun s =>
    match body s with
    | (s1, Blocked) => (s1, Blocked)
    | (s1, OutOfFuel) => (s1, OutOfFuel)
    | (s1, r) =>
        match fin s1 with
        | (s2, Return _) => (s2, r)
        | (s2, Raise e) => (s2, Raise e)
        | (s2, Blocked) => (s2, Blocked)
        | (s2, OutOfFuel) => (s2, OutOfFuel)
        end
    end.

(** ** The collaborators *)

(** The transport and the processing agent, which the relay only calls.
    [accept_fault w] and [send_fault w] give the exception raised by
    [w.accept()] and [w.send_json(_)], if any; [agent m] is the result of
    calling [ccat(m)]. *)
Record world := mkWorld {
  accept_fault : WebSocket -> option exn;
  send_fault : WebSocket -> option exn;
  agent : json -> exn + json
}.

Section Relay.

Variable W : world.

(** [asyncio.gather(a, b)] is library code; the endpoint is embedded over
    any implementation of it. *)
Variable gather : M unit -> M unit -> M unit.

Definition accept (w : WebSocket) : M unit :=
  match accept_fault W w with
  | Some e => raise e
  | None => tell (EvAccept w)
  end.

Definition send_json (w : WebSocket) (m : json) : M unit :=
  match send_fault W w with
  | Some e => raise e
  | None => tell (EvSendJson w m)
  end.

(** [run_in_threadpool(ccat, user_message)] *)
Definition run_in_threadpool (user_message : json) : M json :=
  match agent W user_message with
  | inl e => raise e
  | inr reply => ret reply
  end.

(** [self.active_connections[k]], as in lines 28, 41, 58 and 77. *)
Definition lookup_connection (k : key) : M WebSocket :=
  fun s =>
    match Dict.getitem (active_connections s) k with
    | Some w => (s, Return w)
    | None => (s, Raise (KeyError k))
    end.

(** *** ConnectionManager *)

(** [connect] (lines 23-28): after the handshake,
    [self.active_connections[user_id]] is subscripted and [.append] is
    looked up on the WebSocket found there. *)
Definition connect (websocket : WebSocket) (user_id : key) : M unit :=
  accept websocket ;;
  _ <- lookup_connection user_id ;;
  raise (AttributeError "'WebSocket' object has no attribute 'append'").

(** [disconnect] (lines 30-35): two [del] statements, in this order. *)
Definition disconnect (user_id : key) : M unit :=
  fun s =>
    match Dict.delitem (active_connections s) user_id with
    | None => (s, Raise (KeyError user_id))
    | Some d =>
        let s1 := set_active_connections d s in
        match Dict.delitem (ws_messages s1) user_id with
        | None => (s1, Raise (KeyError user_id))
        | Some q => (set_ws_messages q s1, Return tt)
        end
    end.

(** [send_personal_message] (lines 37-41) *)
Definition send_personal_message (message : json) (user_id : key) : M unit :=
  w <- lookup_connection user_id ;;
  send_json w message.

(** [broadcast] (lines 43-48): the [for] loop over [values()]. *)
Fixpoint broadcast_loop (message : json) (connections : list WebSocket) : M unit :=
  match connections with
  | [] => ret tt
  | connection :: rest =>
      send_json connection message ;;
      broadcast_loop message rest
  end.

Definition broadcast (message : json) : M unit :=
  fun s => broadcast_loop message (Dict.values (active_connections s)) s.

(** *** The two loops of a connection *)

(** The [while True] loop of [receive_message] (lines 59-66).  [feed] lists
    what the successive calls of [ws.receive_json()] produce, a message or
    the exception of a failed read; with nothing left to read the coroutine
    stays suspended.  The reply is passed to
    [send_personal_message(cat_message, ws)], whose second argument is the
    WebSocket object. *)
Fixpoint receive_loop (ws : WebSocket) (feed : list (exn + json)) : M unit :=
  match feed with
  | [] => blocked
  | read :: feed' =>
      user_message <- match read with inl e => raise e | inr m => ret m end ;;
      cat_message <- run_in_threadpool user_message ;;
      send_personal_message cat_message (KObj ws) ;;
      receive_loop ws feed'
  end.

(** [receive_message] (lines 54-66) *)
Definition receive_message (user_id : key) (feed : list (exn + json)) : M unit :=
  ws <- lookup_connection user_id ;;
  receive_loop ws feed.

(** [await ccat.ws_messages[user_id].get()]: the oldest item leaves the
    queue; on an empty queue the coroutine stays suspended. *)
Definition queue_get (user_id : key) : M json :=
  fun s =>
    match user_id with
    | KObj _ => (s, Raise (KeyError user_id))
    | KStr k =>
        match Dict.get (ws_messages s) k with
        | None => (s, Raise (KeyError user_id))
        | Some [] => (s, Blocked)
        | Some (item :: q) =>
            (set_ws_messages (Dict.replace (ws_messages s) k q) s, Return item)
        end
    end.

(** [check_messages] (lines 69-77); [fuel] bounds the number of iterations. *)
Fixpoint check_messages (fuel : nat) (user_id : key) : M unit :=
  match fuel with
  | O => out_of_fuel
  | S fuel' =>
      notification <- queue_get user_id ;;
      ws <- lookup_connection user_id ;;
      send_personal_message notification (KObj ws) ;;
      check_messages fuel' user_id
  end.

(** *** The endpoint *)

Definition error_message (e : exn) : json :=
  JDict [("type", "error"); ("name", exn_name e); ("description", exn_str e)].

(** The [except] clauses of the endpoint (lines 98-109), in order. *)
Definition on_exception (websocket : WebSocket) (e : exn) : option (M unit) :=
  if is_WebSocketDisconnect e then
    Some (tell (EvLogInfo "WebSocket connection closed"))
  else if is_Exception e then
    Some (tell (EvLogError e) ;;
          tell EvPrintExc ;;
          send_personal_message (error_message e) (KObj websocket))
  else None.

(** [try: ... except WebSocketDisconnect: ... except Exception as e: ...] *)
Definition guarded (loops : M unit) (websocket : WebSocket) : M unit :=
  try_except loops (on_exception websocket).

(** The whole [try] statement, with [finally: manager.disconnect(ccat, websocket)]. *)
Definition supervise (loops : M unit) (websocket : WebSocket) : M unit :=
  try_finally (guarded loops websocket) (disconnect (KObj websocket)).

(** [/ws/{user_id}] (lines 115-147) *)
Definition websocket_endpoint (websocket : WebSocket) (user_id : string)
    (feed : list (exn + json)) (fuel : nat) : M unit :=
  connect websocket (KStr user_id) ;;
  supervise (gather (receive_message (KStr user_id) feed)
                    (check_messages fuel (KStr user_id)))
            websocket.

(** [/ws] (lines 80-112): the parameter defaults of the manager and of the
    loops apply. *)
Definition websocket_endpoint_default (websocket : WebSocket)
    (feed : list (exn + json)) (fuel : nat) : M unit :=
  websocket_endpoint websocket "user" feed fuel.

End Relay.

(** The state after [message] has been written to each of [ws], in order. *)
Definition written (ws : list WebSocket) (message : json) (s : state) : state :=
  mkState (active_connections s) (ws_messages s)
          (wire s ++ map (fun w => EvSendJson w message) ws).

(** The frames written to clients, in order: the [send_json] events of a
    wire. *)
Definition frames (l : list event) : list (WebSocket * json) :=
  flat_map (fun ev => match ev with
                      | EvSendJson w m => [(w, m)]
                      | _ => []
                      end) l.

(** [ConnectionManager.__init__] (lines 19-21): the registry starts empty. *)
Definition new_manager : Dict.t WebSocket := [].

(** ** Users of the module *)

(** One step of a user of the module: a call of one of its functions, or
    the collaborator putting any queue map in place of [ccat.ws_messages]. *)
Inductive call :=
| CallConnect (websocket : WebSocket) (user_id : key)
| CallDisconnect (user_id : key)
| CallSendPersonalMessage (message : json) (user_id : key)
| CallBroadcast (message : json)
| CallReceiveMessage (user_id : key) (feed : list (exn + json))
| CallCheckMessages (fuel : nat) (user_id : key)
| CallEndpoint (websocket : WebSocket) (user_id : string)
               (feed : list (exn + json)) (fuel : nat)
| Collaborator (queues : Dict.t (list json)).

Definition perform (W : world) (gather : M unit -> M unit -> M unit)
    (c : call) : M unit :=
  match c with
  | CallConnect websocket user_id => connect W websocket user_id
  | CallDisconnect user_id => disconnect user_id
  | CallSendPersonalMessage message user_id =>
      send_personal_message W message user_id
  | CallBroadcast message => broadcast W message
  | CallReceiveMessage user_id feed => receive_message W user_id feed
  | CallCheckMessages fuel user_id => check_messages W fuel user_id
  | CallEndpoint websocket user_id feed fuel =>
      websocket_endpoint W gather websocket user_id feed fuel
  | Collaborator queues => fun s => (set_ws_messages queues s, Return tt)
  end.

(** The state after a sequence of calls, each started in the state the
    previous one left, whether it returned or raised. *)
Definition run (W : world) (gather : M unit -> M unit -> M unit)
    (calls : list call) (s : state) : state :=
  fold_left (fun s c => fst (perform W gather c s)) calls s.

(** ** Tasks *)

(** The state of an asyncio task wrapping one of the loops. *)
Inductive task_state :=
| TaskPending            (* suspended on an await, still scheduled *)
| TaskDone               (* returned *)
| TaskFailed (e : exn)   (* ended with an exception *)
| TaskCancelled.         (* cancelled *)

(** The state of the task of a coroutine that has run to [r]. *)
Definition task_after (r : outcome unit) : task_state :=
  match r with
  | Return _ => TaskDone
  | Raise CancelledError => TaskCancelled
  | Raise e => TaskFailed e
  | Blocked => TaskPending
  | OutOfFuel => TaskPending
  end.

(** [Task.cancel()]: only a task that has not finished is affected. *)
Definition cancel (t : task_state) : task_state :=
  match t with
  | TaskPending => TaskCancelled
  | _ => t
  end.

(** A task that is left alive: nobody awaits it any more, and it was
    neither finished nor cancelled. *)
Definition leaked (t : task_state) : bool :=
  match t with
  | TaskPending => true
  | _ => false
  end.

(** [asyncio.gather(a, b)] with [return_exceptions=False], after the
    documentation of asyncio.  Both awaitables are scheduled as tasks, in
    the order given, and run concurrently; here [a] runs as far as its
    inputs allow, then [b] does.  The first exception raised is propagated
    at once to the awaiting task, and the other awaitable is not cancelled
    and continues to run.  When both have returned, [gather] returns.  When
    [gather] itself is cancelled while waiting ([outer_cancelled]), the
    awaitables that have not completed are cancelled.  The result is what
    the awaiting task sees, with the states of the two tasks. *)
Definition gather_tasks (outer_cancelled : bool) (a b : M unit)
    (s : state) : (state * outcome unit) * (task_state * task_state) :=
  let (s1, ra) := a s in
  let (s2, rb) := b s1 in
  match ra, rb with
  | Raise e, _ => ((s2, Raise e), (task_after ra, task_after rb))
  | _, Raise e => ((s2, Raise e), (task_after ra, task_after rb))
  | OutOfFuel, _ => ((s2, OutOfFuel), (task_after ra, task_after rb))
  | _, OutOfFuel => ((s2, OutOfFuel), (task_after ra, task_after rb))
  | Return _, Return _ => ((s2, Return tt), (TaskDone, TaskDone))
  | _, _ =>
      if outer_cancelled
      then ((s2, Raise CancelledError),
            (cancel (task_after ra), cancel (task_after rb)))
      else ((s2, Blocked), (task_after ra, task_after rb))
  end.

(** The [try] statement of the endpoint over [gather_tasks]: what the
    endpoint ends with, and the states of the two tasks at that point.
    Neither the handlers nor the [finally] clause touch the tasks: the
    endpoint contains no call of [cancel]. *)
Definition supervise_tasks (W : world) (outer_cancelled : bool)
    (a b : M unit) (websocket : WebSocket) (s : state)
    : (state * outcome unit) * (task_state * task_state) :=
  (supervise W (fun s0 => fst (gather_tasks outer_cancelled a b s0))
             websocket s,
   snd (gather_tasks outer_cancelled a b s)).

(** ** Fixtures *)

(** A transport without faults and an agent that answers every message. *)
Definition healthy : world :=
  mkWorld (fun _ => None) (fun _ => None) (fun _ => inr (JText "hello alice")).

(** The same, except that writes to connection [1] fail. *)
Definition broken_pipe : exn := PyException "RuntimeError" "connection closed".

Definition one_broken : world :=
  mkWorld (fun _ => None)
          (fun w => if Nat.eqb w 1 then Some broken_pipe else None)
          (fun _ => inr (JText "hello alice")).

Definition fresh : state := mkState [] [] [].

Definition alice_online : state :=
  mkState [("alice", 7)] [("alice", [])] [].

Definition alice_notified : state :=
  mkState [("alice", 7)] [("alice", [JText "ping"; JText "pong"])] [].

Definition two_online : state :=
  mkState [("a", 1); ("b", 2)] [("a", []); ("b", [])] [].

(** ** Dictionaries and subscripts *)

Lemma get_remove {V} (d : Dict.t V) (k : string) :
  Dict.get (Dict.remove d k) k = None.
Proof.
  induction d as [|[k' v] d IH]; simpl; [reflexivity|].
  destruct (String.eqb k k') eqn:E; [exact IH|].
  simpl. rewrite E. exact IH.
Qed.

Lemma getitem_delitem {V} (d d' : Dict.t V) (k : key) :
  Dict.delitem d k = Some d' -> Dict.getitem d' k = None.
Proof.
  destruct k as [k|w]; simpl; [|discriminate].
  destruct (Dict.get d k); [|discriminate].
  intros [= <-]. apply get_remove.
Qed.

Lemma delitem_None {V} (d : Dict.t V) (k : key) :
  Dict.getitem d k = None -> Dict.delitem d k = None.
Proof.
  destruct k as [k|w]; simpl; [|reflexivity].
  intros ->. reflexivity.
Qed.

Lemma delitem_Some {V} (d : Dict.t V) (k : key) (v : V) :
  Dict.getitem d k = Some v -> exists d', Dict.delitem d k = Some d'.
Proof.
  destruct k as [k|w]; simpl; [|discriminate].
  intros ->. eauto.
Qed.

(** A WebSocket object used as a subscript finds nothing. *)
Lemma lookup_connection_obj (w : WebSocket) (s : state) :
  lookup_connection (KObj w) s = (s, Raise (KeyError (KObj w))).
Proof. reflexivity. Qed.

Lemma send_personal_message_obj W (m : json) (w : WebSocket) (s : state) :
  send_personal_message W m (KObj w) s = (s, Raise (KeyError (KObj w))).
Proof. reflexivity. Qed.

Lemma disconnect_obj (w : WebSocket) (s : state) :
  disconnect (KObj w) s = (s, Raise (KeyError (KObj w))).
Proof. reflexivity. Qed.

Lemma state_eta (s : state) :
  mkState (active_connections s) (ws_messages s) (wire s) = s.
Proof. destruct s; reflexivity. Qed.

(** What [disconnect] does, by the entries present under its key. *)
Lemma disconnect_cases (user_id : key) (s : state) :
  match Dict.getitem (active_connections s) user_id,
        Dict.getitem (ws_messages s) user_id with
  | Some _, Some _ =>
      exists s', disconnect user_id s = (s', Return tt)
                 /\ Dict.getitem (active_connections s') user_id = None
                 /\ Dict.getitem (ws_messages s') user_id = None
                 /\ wire s' = wire s
  | Some _, None =>
      exists s', disconnect user_id s = (s', Raise (KeyError user_id))
                 /\ Dict.getitem (active_connections s') user_id = None
                 /\ ws_messages s' = ws_messages s
                 /\ wire s' = wire s
  | None, _ => disconnect user_id s = (s, Raise (KeyError user_id))
  end.
Proof.
  unfold disconnect.
  destruct (Dict.getitem (active_connections s) user_id) as [w|] eqn:Ha.
  - destruct (delitem_Some _ _ _ Ha) as [d Hd]. rewrite Hd. simpl.
    destruct (Dict.getitem (ws_messages s) user_id) as [q|] eqn:Hq.
    + destruct (delitem_Some _ _ _ Hq) as [d' Hd']. rewrite Hd'.
      eexists; split; [reflexivity|]. simpl.
      eauto using getitem_delitem.
    + rewrite (delitem_None _ _ Hq).
      eexists; split; [reflexivity|]. simpl.
      eauto using getitem_delitem.
  - rewrite (delitem_None _ _ Ha). reflexivity.
Qed.

(** Whether it returns or raises, [disconnect] leaves no registry entry
    under its key. *)
Lemma disconnect_unregisters (user_id : key) (s : state) :
  Dict.getitem (active_connections (fst (disconnect user_id s))) user_id = None.
Proof.
  pose proof (disconnect_cases user_id s) as H.
  destruct (Dict.getitem (active_connections s) user_id) eqn:Ha.
  - destruct (Dict.getitem (ws_messages s) user_id);
      destruct H as (s' & -> & H1 & _); exact H1.
  - rewrite H. exact Ha.
Qed.

(** ** The registry *)

(** [connect] never touches the registry and never returns: once the
    handshake is done it raises [KeyError] (no entry) or [AttributeError]
    (an entry, which has no [append]). *)
Lemma connect_cases W (websocket : WebSocket) (user_id : key) (s : state) :
  connect W websocket user_id s =
  match accept_fault W websocket with
  | Some e => (s, Raise e)
  | None =>
      (emit (EvAccept websocket) s,
       match Dict.getitem (active_connections s) user_id with
       | Some _ => Raise (AttributeError "'WebSocket' object has no attribute 'append'")
       | None => Raise (KeyError user_id)
       end)
  end.
Proof.
  unfold connect, bind, accept, lookup_connection.
  destruct (accept_fault W websocket); [reflexivity|].
  simpl. destruct (Dict.getitem (active_connections s) user_id); reflexivity.
Qed.

(** C6.  [connect] inserts nothing: for every registry, connection and
    identity the registry after the call is the registry before it and the
    call ends with an exception.  On an empty registry, registering "user"
    performs the handshake and then raises [KeyError('user')]. *)
Theorem connect_never_registers :
  (forall W websocket user_id s,
      active_connections (fst (connect W websocket user_id s))
      = active_connections s
      /\ exists e, snd (connect W websocket user_id s) = Raise e)
  /\ connect healthy 7 (KStr "user") fresh
     = (mkState [] [] [EvAccept 7], Raise (KeyError (KStr "user")))
  /\ Dict.get (active_connections (fst (connect healthy 7 (KStr "user") fresh)))
              "user" = None.
Proof.
  split; [|split; reflexivity].
  intros W websocket user_id s. rewrite connect_cases.
  destruct (accept_fault W websocket); simpl; [eauto|].
  split; [reflexivity|].
  destruct (Dict.getitem (active_connections s) user_id); eauto.
Qed.



(** ** Broadcast *)

Lemma broadcast_loop_app W (message : json) (pre rest : list WebSocket) :
  (forall w, In w pre -> send_fault W w = None) ->
  forall s,
    broadcast_loop W message (pre ++ rest) s
    = broadcast_loop W message rest (written pre message s).
Proof.
  induction pre as [|w pre IH]; intros Hpre s.
  - unfold written. simpl. rewrite app_nil_r, state_eta. reflexivity.
  - simpl. unfold bind at 1. unfold send_json.
    rewrite (Hpre w (or_introl eq_refl)). unfold tell.
    rewrite IH by (intros w' Hw'; apply Hpre; right; exact Hw').
    unfold written, emit. simpl. rewrite <- app_assoc. reflexivity.
Qed.

(** C7 (as amended).  [broadcast] writes to the registered connections in
    registry order.  If [pre] is a prefix of the connections whose writes
    all succeed and the connection after it (if there is one) fails, then
    exactly the connections of [pre] have received the message; the call
    returns when [pre] is the whole registry, and otherwise raises the
    failure of the first failing write, the connections after it receiving
    nothing. *)
Theorem broadcast_stops_at_first_failure W (message : json) (s : state)
    (pre rest : list WebSocket) :
  Dict.values (active_connections s) = pre ++ rest ->
  (forall w, In w pre -> send_fault W w = None) ->
  match rest with
  | [] => True
  | w :: _ => send_fault W w <> None
  end ->
  broadcast W message s
  = (written pre message s,
     match rest with
     | [] => Return tt
     | w :: _ => match send_fault W w with
                 | Some e => Raise e
                 | None => Return tt
                 end
     end).
Proof.
  intros Hvalues Hpre Hrest. unfold broadcast.
  rewrite Hvalues, broadcast_loop_app by exact Hpre.
  destruct rest as [|w rest]; [reflexivity|].
  simpl. unfold bind, send_json.
  destruct (send_fault W w); [reflexivity|congruence].
Qed.

Lemma broadcast_stops_at_first_failure_witness :
  broadcast healthy (JText "news") two_online
  = (written [1; 2] (JText "news") two_online, Return tt).
Proof.
  apply (broadcast_stops_at_first_failure healthy (JText "news") two_online
           [1; 2] []).
  - reflexivity.
  - intros w _. reflexivity.
  - exact I.
Defined.

(** C7 fails as stated: with two registered connections of which the
    first cannot be written to, the broadcast raises and the second, whose
    transport is fine, receives nothing. *)
Lemma broadcast_skips_healthy_connection :
  send_fault one_broken 2 = None
  /\ broadcast one_broken (JText "news") two_online
     = (two_online, Raise broken_pipe)
  /\ ~ In (EvSendJson 2 (JText "news"))
          (wire (fst (broadcast one_broken (JText "news") two_online))).
Proof.
  split; [reflexivity|]. split; [reflexivity|].
  simpl. intros [].
Qed.

(** ** Teardown *)

(** C8 (as amended).  [disconnect] returns without an exception exactly
    when both the registry and the queue map have an entry under its key,
    and then both are gone.  With no registry entry it raises [KeyError]
    and changes nothing; with a registry entry but no queue it raises
    [KeyError] after the registry entry has been removed.  It logs nothing,
    and what it raises in the [finally] clause of the endpoint leaves the
    endpoint. *)
Theorem teardown_raises_to_caller W (loops : M unit) (websocket : WebSocket)
    (user_id : key) (s s1 s2 : state) (r : outcome unit) (e : exn) :
  guarded W loops websocket s = (s1, r) ->
  r <> Blocked -> r <> OutOfFuel ->
  disconnect (KObj websocket) s1 = (s2, Raise e) ->
  supervise W loops websocket s = (s2, Raise e)
  /\ match Dict.getitem (active_connections s) user_id,
           Dict.getitem (ws_messages s) user_id with
     | Some _, Some _ =>
         exists s', disconnect user_id s = (s', Return tt)
                    /\ Dict.getitem (active_connections s') user_id = None
                    /\ Dict.getitem (ws_messages s') user_id = None
                    /\ wire s' = wire s
     | Some _, None =>
         exists s', disconnect user_id s = (s', Raise (KeyError user_id))
                    /\ Dict.getitem (active_connections s') user_id = None
                    /\ ws_messages s' = ws_messages s
                    /\ wire s' = wire s
     | None, _ => disconnect user_id s = (s, Raise (KeyError user_id))
     end.
Proof.
  intros Hg Hb Ht Hd. split; [|apply disconnect_cases].
  unfold supervise, try_finally. rewrite Hg.
  destruct r; try congruence; rewrite Hd; reflexivity.
Qed.

Lemma teardown_raises_to_caller_witness :
  supervise healthy (raise WebSocketDisconnect) 7 alice_online
  = (emit (EvLogInfo "WebSocket connection closed") alice_online,
     Raise (KeyError (KObj 7)))
  /\ exists s', disconnect (KStr "alice") alice_online = (s', Return tt)
                /\ Dict.getitem (active_connections s') (KStr "alice") = None
                /\ Dict.getitem (ws_messages s') (KStr "alice") = None
                /\ wire s' = wire alice_online.
Proof.
  apply (teardown_raises_to_caller healthy (raise WebSocketDisconnect) 7
           (KStr "alice") alice_online
           (emit (EvLogInfo "WebSocket connection closed") alice_online)
           (emit (EvLogInfo "WebSocket connection closed") alice_online)
           (Return tt) (KeyError (KObj 7)));
    try reflexivity; discriminate.
Defined.

(** C8 fails as stated: the teardown of an identity that has no registry
    entry raises [KeyError] to its caller. *)
Lemma disconnect_raises_example :
  disconnect (KStr "user") fresh = (fresh, Raise (KeyError (KStr "user")))
  /\ supervise healthy (raise WebSocketDisconnect) 7 fresh
     = (mkState [] [] [EvLogInfo "WebSocket connection closed"],
        Raise (KeyError (KObj 7))).
Proof. split; reflexivity. Qed.

(** ** The supervised block *)

(** The [finally] clause subscripts the registry with the WebSocket object:
    whenever the [try] statement is left, the block ends with the resulting
    [KeyError], in the state the handlers left. *)
Lemma supervise_cases W (loops : M unit) (websocket : WebSocket) (s : state) :
  supervise W loops websocket s =
  let (s1, r) := guarded W loops websocket s in
  (s1, match r with
       | Blocked => Blocked
       | OutOfFuel => OutOfFuel
       | _ => Raise (KeyError (KObj websocket))
       end).
Proof.
  unfold supervise, try_finally.
  destruct (guarded W loops websocket s) as [s1 r].
  destruct r; try reflexivity; rewrite disconnect_obj; reflexivity.
Qed.

(** The endpoint does not get past [connect]. *)
Lemma websocket_endpoint_stops_at_connect W gather (websocket : WebSocket)
    (user_id : string) (feed : list (exn + json)) (fuel : nat) (s : state) :
  websocket_endpoint W gather websocket user_id feed fuel s
  = connect W websocket (KStr user_id) s.
Proof.
  unfold websocket_endpoint, bind at 1. rewrite connect_cases.
  destruct (accept_fault W websocket); [reflexivity|].
  destruct (Dict.getitem (active_connections s) (KStr user_id)); reflexivity.
Qed.

(** C1.  Teardown does not remove the registry entry or the queue.  With
    "alice" registered and her queue allocated, a client disconnect makes
    the [finally] clause raise [KeyError] for the WebSocket object and both
    entries stay; this is so for every way the [try] statement is left.
    A connection arriving at the endpoint does not even reach the [try]
    statement: the endpoint ends with the exception of [connect]. *)
Theorem teardown_removes_nothing :
  supervise healthy (raise WebSocketDisconnect) 7 alice_online
  = (mkState [("alice", 7)] [("alice", [])]
             [EvLogInfo "WebSocket connection closed"],
     Raise (KeyError (KObj 7)))
  /\ (forall W loops websocket s,
         let s2 := fst (supervise W loops websocket s) in
         active_connections s2 = active_connections (fst (loops s))
         /\ ws_messages s2 = ws_messages (fst (loops s)))
  /\ (forall gather feed fuel,
         websocket_endpoint healthy gather 7 "alice" feed fuel fresh
         = (mkState [] [] [EvAccept 7], Raise (KeyError (KStr "alice")))).
Proof.
  split; [reflexivity|]. split.
  - intros W loops websocket s. rewrite supervise_cases.
    unfold guarded, try_except.
    destruct (loops s) as [s1 [a|e| |]]; simpl; try (split; reflexivity).
    unfold on_exception.
    destruct (is_WebSocketDisconnect e); [split; reflexivity|].
    destruct (is_Exception e); split; reflexivity.
  - intros gather feed fuel.
    rewrite websocket_endpoint_stops_at_connect. reflexivity.
Qed.

(** The handlers and the teardown leave the registry as the loops left
    it. *)
Lemma supervise_registry W (loops : M unit) (websocket : WebSocket)
    (s : state) :
  active_connections (fst (supervise W loops websocket s))
  = active_connections (fst (loops s)).
Proof.
  rewrite supervise_cases. unfold guarded, try_except.
  destruct (loops s) as [s1 [a|e| |]]; try reflexivity.
  unfold on_exception.
  destruct (is_WebSocketDisconnect e); [reflexivity|].
  destruct (is_Exception e); reflexivity.
Qed.

(** C5.  A unicast ([send_personal_message]) to an identity that has no
    registry entry fails with the [KeyError] of the registry subscript, the
    relay's "not connected" failure, and writes nothing.  But the teardown
    of the endpoint does not produce such a state: after the [try]
    statement of a connection has ended, whatever way, the identity is
    still registered, and a unicast to it does not fail: it is written to
    the connection that was torn down. *)
Theorem unicast_after_teardown W (loops : M unit) (websocket conn : WebSocket)
    (message : json) (user_id : string) (s : state) :
  (Dict.get (active_connections s) user_id = None ->
   send_personal_message W message (KStr user_id) s
   = (s, Raise (KeyError (KStr user_id))))
  /\ (let s' := fst (supervise W loops websocket s) in
      Dict.get (active_connections (fst (loops s))) user_id = Some conn ->
      send_fault W conn = None ->
      send_personal_message W message (KStr user_id) s'
      = (mkState (active_connections s') (ws_messages s')
                 (wire s' ++ [EvSendJson conn message]),
         Return tt)).
Proof.
  split.
  - intros H. unfold send_personal_message, bind, lookup_connection. simpl.
    rewrite H. reflexivity.
  - intros s' Hreg Hok.
    unfold send_personal_message, bind, lookup_connection. simpl.
    unfold s' at 1. rewrite supervise_registry, Hreg.
    unfold send_json. rewrite Hok. reflexivity.
Qed.

Lemma unicast_after_teardown_witness :
  let s' := fst (supervise healthy (raise WebSocketDisconnect) 7 alice_online) in
  Dict.get (active_connections s') "alice" = Some 7
  /\ send_personal_message healthy (JText "late") (KStr "alice") s'
     = (mkState [("alice", 7)] [("alice", [])]
                [EvLogInfo "WebSocket connection closed";
                 EvSendJson 7 (JText "late")],
        Return tt).
Proof.
  split; [reflexivity|].
  apply (proj2 (unicast_after_teardown healthy (raise WebSocketDisconnect)
                  7 7 (JText "late") "alice" alice_online));
    reflexivity.
Defined.

(** C9.  No final message reaches the client.  When the loops end with an
    [Exception] other than [WebSocketDisconnect], the handler logs it and
    calls [send_personal_message] with the report
    [{type: error, name, description}] and the WebSocket object in the place
    of the identity; that call raises [KeyError] at the registry subscript,
    before anything is written, and the [KeyError] leaves the handler.  The
    whole [try] statement writes no frame. *)
Theorem error_report_never_sent W (loops : M unit) (websocket : WebSocket)
    (s s1 : state) (e : exn) :
  loops s = (s1, Raise e) ->
  is_WebSocketDisconnect e = false ->
  is_Exception e = true ->
  let logged := mkState (active_connections s1) (ws_messages s1)
                        (wire s1 ++ [EvLogError e; EvPrintExc]) in
  guarded W loops websocket s
  = send_personal_message W (error_message e) (KObj websocket) logged
  /\ guarded W loops websocket s = (logged, Raise (KeyError (KObj websocket)))
  /\ frames (wire (fst (supervise W loops websocket s))) = frames (wire s1).
Proof.
  intros Hl Hd He logged.
  assert (Hg : guarded W loops websocket s
               = send_personal_message W (error_message e) (KObj websocket)
                                       logged).
  { unfold guarded, try_except, on_exception. rewrite Hl, Hd, He.
    unfold bind at 1. unfold tell at 1. unfold bind at 1. unfold tell at 1.
    unfold logged, emit. simpl. rewrite <- app_assoc. reflexivity. }
  split; [exact Hg|].
  rewrite send_personal_message_obj in Hg. split; [exact Hg|].
  rewrite supervise_cases, Hg. unfold logged, frames. simpl.
  rewrite flat_map_app. simpl. apply app_nil_r.
Qed.

Lemma error_report_never_sent_witness :
  send_fault healthy 7 = None
  /\ guarded healthy (raise (PyException "ValueError" "boom")) 7 alice_online
     = (mkState [("alice", 7)] [("alice", [])]
                [EvLogError (PyException "ValueError" "boom"); EvPrintExc],
        Raise (KeyError (KObj 7)))
  /\ frames (wire (fst (supervise healthy
                          (raise (PyException "ValueError" "boom"))
                          7 alice_online))) = [].
Proof.
  split; [reflexivity|].
  apply (error_report_never_sent healthy
           (raise (PyException "ValueError" "boom")) 7 alice_online
           alice_online (PyException "ValueError" "boom"));
    reflexivity.
Defined.

(** ** The tasks of the two loops *)

(** C4 (as amended).  When one loop ends with an exception while the
    other is suspended, the exception reaches the endpoint at once and the
    endpoint goes through its handlers and teardown to its end, but the
    suspended loop is not cancelled: its task stays pending.  The loops
    are cancelled only when the endpoint is itself cancelled while both
    are suspended. *)
Theorem surviving_loop_stays_pending W (outer_cancelled : bool)
    (a b : M unit) (websocket : WebSocket) (s s1 s2 : state) (e : exn) :
  (a s = (s1, Raise e) -> b s1 = (s2, Blocked) ->
   snd (fst (supervise_tasks W outer_cancelled a b websocket s))
   = Raise (KeyError (KObj websocket))
   /\ snd (supervise_tasks W outer_cancelled a b websocket s)
      = (task_after (Raise e), TaskPending))
  /\ (a s = (s1, Blocked) -> b s1 = (s2, Raise e) ->
      snd (fst (supervise_tasks W outer_cancelled a b websocket s))
      = Raise (KeyError (KObj websocket))
      /\ snd (supervise_tasks W outer_cancelled a b websocket s)
         = (TaskPending, task_after (Raise e)))
  /\ (a s = (s1, Blocked) -> b s1 = (s2, Blocked) ->
      supervise_tasks W outer_cancelled a b websocket s
      = if outer_cancelled
        then ((s2, Raise (KeyError (KObj websocket))),
              (TaskCancelled, TaskCancelled))
        else ((s2, Blocked), (TaskPending, TaskPending))).
Proof.
  unfold supervise_tasks.
  split; [|split]; intros Ha Hb.
  - rewrite supervise_cases. unfold guarded, try_except, gather_tasks.
    rewrite Ha, Hb. simpl. split; [|reflexivity].
    unfold on_exception.
    destruct (is_WebSocketDisconnect e); [reflexivity|].
    destruct (is_Exception e); reflexivity.
  - rewrite supervise_cases. unfold guarded, try_except, gather_tasks.
    rewrite Ha, Hb. simpl. split; [|reflexivity].
    unfold on_exception.
    destruct (is_WebSocketDisconnect e); [reflexivity|].
    destruct (is_Exception e); reflexivity.
  - rewrite supervise_cases. unfold guarded, try_except, gather_tasks.
    rewrite Ha, Hb. destruct outer_cancelled; reflexivity.
Qed.

Lemma surviving_loop_stays_pending_witness :
  receive_message healthy (KStr "alice") [inr (JText "hi")] alice_online
  = (alice_online, Raise (KeyError (KObj 7)))
  /\ check_messages healthy 1 (KStr "alice") alice_online
     = (alice_online, Blocked)
  /\ snd (fst (supervise_tasks healthy false
                  (receive_message healthy (KStr "alice") [inr (JText "hi")])
                  (check_messages healthy 1 (KStr "alice"))
                  7 alice_online))
     = Raise (KeyError (KObj 7))
  /\ snd (supervise_tasks healthy false
             (receive_message healthy (KStr "alice") [inr (JText "hi")])
             (check_messages healthy 1 (KStr "alice"))
             7 alice_online)
     = (TaskFailed (KeyError (KObj 7)), TaskPending).
Proof.
  split; [reflexivity|]. split; [reflexivity|].
  apply (proj1 (surviving_loop_stays_pending healthy false
                  (receive_message healthy (KStr "alice") [inr (JText "hi")])
                  (check_messages healthy 1 (KStr "alice"))
                  7 alice_online alice_online alice_online
                  (KeyError (KObj 7))));
    reflexivity.
Defined.

(** C4 fails as stated: the client of "alice" closes the connection while
    the notification loop waits on her empty queue.  The inbound loop ends
    with [WebSocketDisconnect], the endpoint runs to its end, and the task
    of the notification loop is neither finished nor cancelled. *)
Lemma surviving_loop_leaked_example :
  let r := supervise_tasks healthy false
             (receive_message healthy (KStr "alice") [inl WebSocketDisconnect])
             (check_messages healthy 1 (KStr "alice"))
             7 alice_online in
  fst (snd r) = TaskFailed WebSocketDisconnect
  /\ snd (fst r) = Raise (KeyError (KObj 7))
  /\ snd (snd r) <> TaskCancelled
  /\ leaked (snd (snd r)) = true.
Proof.
  simpl. repeat split. discriminate.
Qed.

(** ** The loops *)

(** The inbound loop never changes the state: it ends at its first
    iteration, before anything is written. *)
Lemma receive_message_state W (user_id : key) (feed : list (exn + json))
    (s : state) :
  fst (receive_message W user_id feed s) = s.
Proof.
  unfold receive_message, bind, lookup_connection.
  destruct (Dict.getitem (active_connections s) user_id) as [ws|];
    [|reflexivity].
  destruct feed as [|[e|m] feed]; try reflexivity.
  simpl. unfold bind, ret, run_in_threadpool.
  destruct (agent W m); reflexivity.
Qed.

(** C2.  No reply is ever written.  With "alice" registered, a healthy
    transport and an agent that answers, the request [hi] is read, the
    agent's reply is computed, and the loop ends with [KeyError] for the
    WebSocket object; nothing was sent.  For every registry and every feed
    the inbound loop leaves the wire as it found it. *)
Theorem receive_message_never_replies :
  receive_message healthy (KStr "alice") [inr (JText "hi")] alice_online
  = (alice_online, Raise (KeyError (KObj 7)))
  /\ agent healthy (JText "hi") = inr (JText "hello alice")
  /\ (forall W user_id feed s,
         wire (fst (receive_message W user_id feed s)) = wire s).
Proof.
  split; [reflexivity|]. split; [reflexivity|].
  intros. rewrite receive_message_state. reflexivity.
Qed.

(** One iteration of the notification loop suffices: it ends there, without
    having written anything. *)
Lemma check_messages_wire W (fuel : nat) (user_id : key) (s : state) :
  wire (fst (check_messages W fuel user_id s)) = wire s
  /\ (fuel <> 0 -> snd (check_messages W fuel user_id s) <> OutOfFuel).
Proof.
  destruct fuel as [|fuel]; [split; [reflexivity|congruence]|].
  simpl. unfold bind, queue_get, lookup_connection.
  destruct user_id as [k|w]; [|split; [reflexivity|discriminate]].
  destruct (Dict.get (ws_messages s) k) as [[|item q]|];
    try (split; [reflexivity|discriminate]).
  simpl. destruct (Dict.get (active_connections s) k);
    split; try reflexivity; discriminate.
Qed.

(** C3.  Notifications are taken from the queue and not delivered.  With
    "alice" registered and [ping], [pong] queued for her, the loop removes
    [ping] from the queue and ends with [KeyError] for the WebSocket object;
    nothing was sent, and [pong] stays queued.  For every state the
    notification loop leaves the wire as it found it. *)
Theorem check_messages_loses_notification :
  (forall fuel,
      check_messages healthy (S fuel) (KStr "alice") alice_notified
      = (mkState [("alice", 7)] [("alice", [JText "pong"])] [],
         Raise (KeyError (KObj 7))))
  /\ (forall W fuel user_id s,
         wire (fst (check_messages W fuel user_id s)) = wire s).
Proof.
  split; [reflexivity|].
  intros. apply check_messages_wire.
Qed.

(** ** Further properties of the registry *)

Lemma get_remove_other {V} (d : Dict.t V) (k k' : string) :
  k <> k' -> Dict.get (Dict.remove d k) k' = Dict.get d k'.
Proof.
  intros Hk. induction d as [|[k0 v] d IH]; simpl; [reflexivity|].
  destruct (String.eqb k k0) eqn:E.
  - apply String.eqb_eq in E. subst k0. rewrite IH.
    destruct (String.eqb k' k) eqn:E'; [|reflexivity].
    apply String.eqb_eq in E'. congruence.
  - simpl. rewrite IH. reflexivity.
Qed.

Lemma get_replace_same {V} (d : Dict.t V) (k : string) (v0 v : V) :
  Dict.get d k = Some v0 -> Dict.get (Dict.replace d k v) k = Some v.
Proof.
  induction d as [|[k0 v1] d IH]; simpl; [discriminate|].
  destruct (String.eqb k k0) eqn:E; simpl; rewrite E; auto.
Qed.

Lemma get_replace_other {V} (d : Dict.t V) (k k' : string) (v : V) :
  k <> k' -> Dict.get (Dict.replace d k v) k' = Dict.get d k'.
Proof.
  intros Hk. induction d as [|[k0 v1] d IH]; simpl; [reflexivity|].
  destruct (String.eqb k k0) eqn:E; simpl.
  - apply String.eqb_eq in E. subst k0.
    destruct (String.eqb k' k) eqn:E'; [|reflexivity].
    apply String.eqb_eq in E'. congruence.
  - rewrite IH. reflexivity.
Qed.

(** The registry that [disconnect] leaves: the one it found, or that one
    without the entry of its key. *)
Lemma disconnect_registry (user_id : string) (s : state) :
  active_connections (fst (disconnect (KStr user_id) s))
  = active_connections s
  \/ active_connections (fst (disconnect (KStr user_id) s))
     = Dict.remove (active_connections s) user_id.
Proof.
  unfold disconnect. simpl.
  destruct (Dict.get (active_connections s) user_id); [|left; reflexivity].
  simpl. destruct (Dict.get (ws_messages s) user_id); right; reflexivity.
Qed.

Lemma disconnect_queues (user_id : string) (s : state) :
  ws_messages (fst (disconnect (KStr user_id) s)) = ws_messages s
  \/ ws_messages (fst (disconnect (KStr user_id) s))
     = Dict.remove (ws_messages s) user_id.
Proof.
  unfold disconnect. simpl.
  destruct (Dict.get (active_connections s) user_id); [|left; reflexivity].
  simpl. destruct (Dict.get (ws_messages s) user_id);
    [right|left]; reflexivity.
Qed.

(** X1.  [disconnect] of one identity leaves the registry entry and the
    queue of every other identity as they were, whether it returns or
    raises. *)
Theorem disconnect_keeps_other_identities (user_id other : string) (s : state) :
  other <> user_id ->
  let s' := fst (disconnect (KStr user_id) s) in
  Dict.get (active_connections s') other = Dict.get (active_connections s) other
  /\ Dict.get (ws_messages s') other = Dict.get (ws_messages s) other.
Proof.
  intros Hne s'. subst s'. split.
  - destruct (disconnect_registry user_id s) as [-> | ->]; [reflexivity|].
    apply get_remove_other. congruence.
  - destruct (disconnect_queues user_id s) as [-> | ->]; [reflexivity|].
    apply get_remove_other. congruence.
Qed.

Lemma disconnect_keeps_other_identities_witness :
  let s' := fst (disconnect (KStr "a") two_online) in
  Dict.get (active_connections s') "b" = Some 2
  /\ Dict.get (ws_messages s') "b" = Some [].
Proof.
  apply (disconnect_keeps_other_identities "a" "b" two_online).
  discriminate.
Defined.

(** X2.  [disconnect] is not idempotent: after a call that returned, a
    second call for the same key raises [KeyError] and changes nothing. *)
Theorem disconnect_twice_raises (user_id : key) (s s' : state) :
  disconnect user_id s = (s', Return tt) ->
  disconnect user_id s' = (s', Raise (KeyError user_id)).
Proof.
  intros H.
  pose proof (disconnect_unregisters user_id s) as Hu.
  rewrite H in Hu. simpl in Hu.
  pose proof (disconnect_cases user_id s') as Hc.
  rewrite Hu in Hc. exact Hc.
Qed.

Lemma disconnect_twice_raises_witness :
  disconnect (KStr "alice") (mkState [] [] [])
  = (mkState [] [] [], Raise (KeyError (KStr "alice"))).
Proof.
  apply (disconnect_twice_raises (KStr "alice") alice_online).
  reflexivity.
Defined.

(** X3.  A unicast to a registered identity writes exactly one frame,
    to the connection registered under that identity, and changes nothing
    else; when the write fails, its exception is raised and the state is
    as before. *)
Theorem unicast_registered W (message : json) (user_id : string)
    (w : WebSocket) (s : state) :
  Dict.get (active_connections s) user_id = Some w ->
  send_personal_message W message (KStr user_id) s
  = match send_fault W w with
    | Some e => (s, Raise e)
    | None => (mkState (active_connections s) (ws_messages s)
                       (wire s ++ [EvSendJson w message]),
               Return tt)
    end.
Proof.
  intros H. unfold send_personal_message, bind, lookup_connection. simpl.
  rewrite H. unfold send_json. destruct (send_fault W w); reflexivity.
Qed.

Lemma unicast_registered_witness :
  send_personal_message healthy (JText "hi") (KStr "b") two_online
  = (mkState [("a", 1); ("b", 2)] [("a", []); ("b", [])]
             [EvSendJson 2 (JText "hi")],
     Return tt).
Proof.
  apply (unicast_registered healthy (JText "hi") "b" 2 two_online).
  reflexivity.
Defined.


(** ** Further properties of broadcast *)

Lemma broadcast_loop_returns W (message : json) (l : list WebSocket) :
  forall s,
    snd (broadcast_loop W message l s) = Return tt
    <-> (forall w, In w l -> send_fault W w = None).
Proof.
  induction l as [|w l IH]; intros s; simpl.
  - split; [intros _ w' []|reflexivity].
  - unfold bind at 1. unfold send_json.
    destruct (send_fault W w) as [e|] eqn:E; simpl.
    + split; [discriminate|].
      intros H. specialize (H w (or_introl eq_refl)). congruence.
    + rewrite IH. split.
      * intros H w' [<-|Hw']; [exact E|exact (H w' Hw')].
      * intros H w' Hw'. apply H. right. exact Hw'.
Qed.

(** X4.  [broadcast] returns without an exception exactly when no
    registered connection has a failing transport, and then every
    registered connection has been written to once, in registry order, with
    the registry and the queues unchanged. *)
Theorem broadcast_returns_iff_all_writable W (message : json) (s : state) :
  (snd (broadcast W message s) = Return tt
   <-> (forall w, In w (Dict.values (active_connections s)) ->
                  send_fault W w = None))
  /\ (snd (broadcast W message s) = Return tt ->
      fst (broadcast W message s)
      = written (Dict.values (active_connections s)) message s).
Proof.
  unfold broadcast. split; [apply broadcast_loop_returns|].
  intros H0.
  pose proof (proj1 (broadcast_loop_returns W message _ s) H0) as H.
  rewrite <- (app_nil_r (Dict.values (active_connections s))) at 1.
  rewrite broadcast_loop_app by exact H. reflexivity.
Qed.

Lemma broadcast_returns_iff_all_writable_witness :
  fst (broadcast healthy (JText "news") two_online)
  = mkState [("a", 1); ("b", 2)] [("a", []); ("b", [])]
            [EvSendJson 1 (JText "news"); EvSendJson 2 (JText "news")].
Proof.
  apply (proj2 (broadcast_returns_iff_all_writable healthy (JText "news")
                  two_online)).
  reflexivity.
Defined.

(** ** Further properties of the loops *)

(** X5.  What the inbound loop ends with.  For an identity that has no
    registry entry it raises [KeyError] for that identity without reading.
    Otherwise only the first read matters: with nothing to read the loop
    stays suspended, a failed read raises its exception (a client
    disconnect included), a failing agent raises the agent's exception,
    and an answered message ends in [KeyError] for the WebSocket object.
    The state is never changed. *)
Theorem receive_message_outcome W (user_id : string)
    (feed : list (exn + json)) (s : state) :
  receive_message W (KStr user_id) feed s
  = (s, match Dict.get (active_connections s) user_id with
        | None => Raise (KeyError (KStr user_id))
        | Some ws =>
            match feed with
            | [] => Blocked
            | inl e :: _ => Raise e
            | inr m :: _ =>
                match agent W m with
                | inl e => Raise e
                | inr _ => Raise (KeyError (KObj ws))
                end
            end
        end).
Proof.
  unfold receive_message, bind, lookup_connection. simpl.
  destruct (Dict.get (active_connections s) user_id) as [ws|];
    [|reflexivity].
  destruct feed as [|[e|m] feed]; try reflexivity.
  simpl. unfold bind, ret, run_in_threadpool.
  destruct (agent W m); reflexivity.
Qed.

(** One iteration of the notification loop, which is also its last. *)
Lemma check_messages_step W (fuel : nat) (user_id : string) (s : state) :
  check_messages W (S fuel) (KStr user_id) s
  = match Dict.get (ws_messages s) user_id with
    | None => (s, Raise (KeyError (KStr user_id)))
    | Some [] => (s, Blocked)
    | Some (item :: q) =>
        (set_ws_messages (Dict.replace (ws_messages s) user_id q) s,
         match Dict.get (active_connections s) user_id with
         | Some ws => Raise (KeyError (KObj ws))
         | None => Raise (KeyError (KStr user_id))
         end)
    end.
Proof.
  simpl. unfold bind, queue_get, lookup_connection.
  destruct (Dict.get (ws_messages s) user_id) as [[|item q]|];
    try reflexivity.
  simpl. destruct (Dict.get (active_connections s) user_id); reflexivity.
Qed.

(** X6.  What the notification loop ends with, for any positive fuel.
    Without a queue for the identity it raises [KeyError] for the
    identity; on an empty queue it stays suspended; in both cases the state
    is unchanged.  With a notification queued it raises [KeyError], for the
    WebSocket object when the identity is registered and for the identity
    when it is not. *)
Theorem check_messages_outcome W (fuel : nat) (user_id : string) (s : state) :
  fuel <> 0 ->
  snd (check_messages W fuel (KStr user_id) s)
  = match Dict.get (ws_messages s) user_id with
    | None => Raise (KeyError (KStr user_id))
    | Some [] => Blocked
    | Some (_ :: _) =>
        match Dict.get (active_connections s) user_id with
        | Some ws => Raise (KeyError (KObj ws))
        | None => Raise (KeyError (KStr user_id))
        end
    end
  /\ (match Dict.get (ws_messages s) user_id with
      | Some (_ :: _) => True
      | _ => fst (check_messages W fuel (KStr user_id) s) = s
      end).
Proof.
  intros Hf. destruct fuel as [|fuel]; [congruence|].
  rewrite check_messages_step.
  destruct (Dict.get (ws_messages s) user_id) as [[|item q]|];
    split; try reflexivity; exact I.
Qed.

Lemma check_messages_outcome_witness :
  snd (check_messages healthy 3 (KStr "alice") alice_online) = Blocked
  /\ fst (check_messages healthy 3 (KStr "alice") alice_online) = alice_online.
Proof.
  apply (check_messages_outcome healthy 3 "alice" alice_online).
  discriminate.
Defined.

(** X7.  The notification loop takes exactly the oldest notification of
    its identity from the queue, whatever the fuel: the rest of that queue
    stays in order, and the queues of the other identities and the registry
    are untouched. *)
Theorem check_messages_takes_oldest W (fuel : nat) (user_id other : string)
    (item : json) (q : list json) (s : state) :
  fuel <> 0 ->
  Dict.get (ws_messages s) user_id = Some (item :: q) ->
  let s' := fst (check_messages W fuel (KStr user_id) s) in
  Dict.get (ws_messages s') user_id = Some q
  /\ (other <> user_id ->
      Dict.get (ws_messages s') other = Dict.get (ws_messages s) other)
  /\ active_connections s' = active_connections s.
Proof.
  intros Hf Hq s'. subst s'. destruct fuel as [|fuel]; [congruence|].
  rewrite check_messages_step, Hq. simpl. repeat split.
  - eapply get_replace_same. exact Hq.
  - intros Hne. apply get_replace_other. congruence.
Qed.

Lemma check_messages_takes_oldest_witness :
  let s' := fst (check_messages healthy 9 (KStr "alice") alice_notified) in
  Dict.get (ws_messages s') "alice" = Some [JText "pong"]
  /\ ("bob" <> "alice" ->
      Dict.get (ws_messages s') "bob" = Dict.get (ws_messages alice_notified) "bob")
  /\ active_connections s' = active_connections alice_notified.
Proof.
  apply (check_messages_takes_oldest healthy 9 "alice" "bob" (JText "ping")
           [JText "pong"] alice_notified).
  - discriminate.
  - reflexivity.
Defined.

(** ** Further properties of the supervised block *)

Lemma frames_app (l l' : list event) :
  frames (l ++ l') = frames l ++ frames l'.
Proof. unfold frames. apply flat_map_app. Qed.

Lemma guarded_frames W (loops : M unit) (websocket : WebSocket) (s : state) :
  frames (wire (fst (guarded W loops websocket s)))
  = frames (wire (fst (loops s))).
Proof.
  unfold guarded, try_except.
  destruct (loops s) as [s1 [a|e| |]]; try reflexivity.
  unfold on_exception.
  destruct (is_WebSocketDisconnect e).
  - simpl. rewrite frames_app. simpl. apply app_nil_r.
  - destruct (is_Exception e); [|reflexivity].
    simpl. rewrite !frames_app. simpl. rewrite !app_nil_r. reflexivity.
Qed.

(** X8.  The handlers and the teardown of the endpoint write no frame:
    the frames on the wire after the supervised block are those the loops
    wrote. *)
Theorem supervise_writes_no_frame W (loops : M unit) (websocket : WebSocket)
    (s : state) :
  frames (wire (fst (supervise W loops websocket s)))
  = frames (wire (fst (loops s))).
Proof.
  rewrite <- (guarded_frames W loops websocket s).
  rewrite supervise_cases.
  destruct (guarded W loops websocket s) as [s1 r]. reflexivity.
Qed.

(** X9.  However the loops end, by returning or with any exception
    (client disconnect and cancellation included), the supervised block
    ends with [KeyError] for the WebSocket object: the exception of the
    [finally] clause replaces what was in flight. *)
Theorem supervise_masks_exception W (loops : M unit) (websocket : WebSocket)
    (s s1 : state) (r : outcome unit) :
  loops s = (s1, r) ->
  r <> Blocked -> r <> OutOfFuel ->
  snd (supervise W loops websocket s) = Raise (KeyError (KObj websocket)).
Proof.
  intros Hl Hb Hf. rewrite supervise_cases.
  unfold guarded, try_except. rewrite Hl.
  destruct r as [a|e| |]; try congruence; [reflexivity|].
  unfold on_exception.
  destruct (is_WebSocketDisconnect e); [reflexivity|].
  destruct (is_Exception e); reflexivity.
Qed.

Lemma supervise_masks_exception_witness :
  snd (supervise healthy (raise CancelledError) 7 alice_online)
  = Raise (KeyError (KObj 7)).
Proof.
  apply (supervise_masks_exception healthy (raise CancelledError) 7
           alice_online alice_online (Raise CancelledError));
    [reflexivity|discriminate|discriminate].
Defined.

(** X10.  The [except] clauses.  A client disconnect is absorbed with one
    info line and nothing else; a cancellation matches no clause and goes
    on unlogged; while the loops stay suspended no clause and no teardown
    runs. *)
Theorem guarded_dispatch W (loops : M unit) (websocket : WebSocket)
    (s s1 : state) (r : outcome unit) :
  loops s = (s1, r) ->
  match r with
  | Raise WebSocketDisconnect =>
      guarded W loops websocket s
      = (mkState (active_connections s1) (ws_messages s1)
                 (wire s1 ++ [EvLogInfo "WebSocket connection closed"]),
         Return tt)
  | Raise CancelledError =>
      guarded W loops websocket s = (s1, Raise CancelledError)
  | Blocked => supervise W loops websocket s = (s1, Blocked)
  | _ => True
  end.
Proof.
  intros Hl. unfold supervise, try_finally, guarded, try_except.
  rewrite Hl. destruct r as [a|[]| |]; try exact I; reflexivity.
Qed.

Lemma guarded_dispatch_witness :
  guarded healthy (raise WebSocketDisconnect) 7 alice_online
  = (mkState [("alice", 7)] [("alice", [])]
             [EvLogInfo "WebSocket connection closed"],
     Return tt).
Proof.
  apply (guarded_dispatch healthy (raise WebSocketDisconnect) 7 alice_online
           alice_online (Raise WebSocketDisconnect)).
  reflexivity.
Defined.

(** X11.  For every implementation of [gather], a connection arriving at
    the endpoint is never served: the loops do not run, the registry and
    the queues are as before, the only possible effect is the accepted
    handshake, and the endpoint ends with an exception. *)
Theorem websocket_endpoint_serves_nothing W gather (websocket : WebSocket)
    (user_id : string) (feed : list (exn + json)) (fuel : nat) (s : state) :
  let s' := fst (websocket_endpoint W gather websocket user_id feed fuel s) in
  active_connections s' = active_connections s
  /\ ws_messages s' = ws_messages s
  /\ (wire s' = wire s \/ wire s' = wire s ++ [EvAccept websocket])
  /\ exists e,
      snd (websocket_endpoint W gather websocket user_id feed fuel s) = Raise e.
Proof.
  rewrite websocket_endpoint_stops_at_connect, connect_cases.
  destruct (accept_fault W websocket); simpl.
  - repeat split; eauto.
  - repeat split; [right; reflexivity|].
    destruct (Dict.get (active_connections s) user_id); eauto.
Qed.

(** ** Invariants over sequences of calls *)

Lemma send_personal_message_registry W (message : json) (user_id : key)
    (s : state) :
  active_connections (fst (send_personal_message W message user_id s))
  = active_connections s.
Proof.
  unfold send_personal_message, bind, lookup_connection.
  destruct (Dict.getitem (active_connections s) user_id) as [w|];
    [|reflexivity].
  unfold send_json. destruct (send_fault W w); reflexivity.
Qed.

Lemma broadcast_loop_registry W (message : json) (l : list WebSocket) :
  forall s,
    active_connections (fst (broadcast_loop W message l s))
    = active_connections s.
Proof.
  induction l as [|w l IH]; intros s; simpl; [reflexivity|].
  unfold bind at 1. unfold send_json.
  destruct (send_fault W w); [reflexivity|].
  simpl. rewrite IH. reflexivity.
Qed.

Lemma check_messages_registry W (fuel : nat) (user_id : key) (s : state) :
  active_connections (fst (check_messages W fuel user_id s))
  = active_connections s.
Proof.
  destruct fuel as [|fuel]; [reflexivity|].
  destruct user_id as [k|w]; [|reflexivity].
  rewrite check_messages_step.
  destruct (Dict.get (ws_messages s) k) as [[|item q]|]; reflexivity.
Qed.

Lemma disconnect_wire (user_id : key) (s : state) :
  wire (fst (disconnect user_id s)) = wire s.
Proof.
  pose proof (disconnect_cases user_id s) as H.
  destruct (Dict.getitem (active_connections s) user_id).
  - destruct (Dict.getitem (ws_messages s) user_id);
      destruct H as (s' & -> & _ & _ & Hw); exact Hw.
  - rewrite H. reflexivity.
Qed.

(** A call leaves the registry as it is or removes one entry from it. *)
Lemma perform_registry W gather (c : call) (s : state) :
  active_connections (fst (perform W gather c s)) = active_connections s
  \/ exists k,
      active_connections (fst (perform W gather c s))
      = Dict.remove (active_connections s) k.
Proof.
  destruct c as [w k|k|m k|m|k feed|fuel k|w uid feed fuel|q]; simpl.
  - left. rewrite connect_cases.
    destruct (accept_fault W w); reflexivity.
  - destruct k as [k|w]; [|left; reflexivity].
    destruct (disconnect_registry k s) as [H|H]; eauto.
  - left. apply send_personal_message_registry.
  - left. apply broadcast_loop_registry.
  - left. rewrite receive_message_state. reflexivity.
  - left. apply check_messages_registry.
  - left. rewrite websocket_endpoint_stops_at_connect, connect_cases.
    destruct (accept_fault W w); reflexivity.
  - left. reflexivity.
Qed.

Lemma get_remove_Some {V} (d : Dict.t V) (k0 k : string) (v : V) :
  Dict.get (Dict.remove d k0) k = Some v -> Dict.get d k = Some v.
Proof.
  destruct (String.eqb k0 k) eqn:E.
  - apply String.eqb_eq in E. subst k0. rewrite get_remove. discriminate.
  - apply String.eqb_neq in E. rewrite get_remove_other by exact E. auto.
Qed.

(** X12.  No function of the module ever adds a registry entry: after
    any sequence of calls, with any interleaved changes of the queues by
    the collaborator, an identity that is registered was registered, with
    the same connection, before the first call. *)
Theorem registry_never_grows W gather (calls : list call) (s : state)
    (user_id : string) (w : WebSocket) :
  Dict.get (active_connections (run W gather calls s)) user_id = Some w ->
  Dict.get (active_connections s) user_id = Some w.
Proof.
  revert s. induction calls as [|c calls IH]; intros s; simpl; [auto|].
  intros H. apply IH in H.
  destruct (perform_registry W gather c s) as [E|[k E]];
    rewrite E in H; [exact H|].
  eapply get_remove_Some. exact H.
Qed.

Lemma registry_never_grows_witness :
  let calls := [CallConnect 9 (KStr "c"); CallDisconnect (KStr "a");
                CallBroadcast (JText "news")] in
  Dict.get (active_connections (run healthy (fun a _ => a) calls two_online))
           "b" = Some 2
  /\ Dict.get (active_connections two_online) "b" = Some 2.
Proof.
  assert (H : Dict.get (active_connections
                          (run healthy (fun a _ => a)
                               [CallConnect 9 (KStr "c");
                                CallDisconnect (KStr "a");
                                CallBroadcast (JText "news")]
                               two_online))
                       "b" = Some 2) by reflexivity.
  split; [exact H|].
  exact (registry_never_grows healthy (fun a _ => a) _ two_online "b" 2 H).
Defined.

Lemma perform_frames_unregistered W gather (c : call) (s : state) :
  active_connections s = new_manager ->
  frames (wire (fst (perform W gather c s))) = frames (wire s).
Proof.
  intros Hreg.
  destruct c as [w k|k|m k|m|k feed|fuel k|w uid feed fuel|q]; simpl.
  - rewrite connect_cases. destruct (accept_fault W w); [reflexivity|].
    simpl. rewrite frames_app. simpl. apply app_nil_r.
  - rewrite disconnect_wire. reflexivity.
  - unfold send_personal_message, bind, lookup_connection. rewrite Hreg.
    destruct k; reflexivity.
  - unfold broadcast. rewrite Hreg. reflexivity.
  - rewrite receive_message_state. reflexivity.
  - rewrite (proj1 (check_messages_wire W fuel k s)). reflexivity.
  - rewrite websocket_endpoint_stops_at_connect, connect_cases.
    destruct (accept_fault W w); [reflexivity|].
    simpl. rewrite frames_app. simpl. apply app_nil_r.
  - reflexivity.
Qed.

Lemma perform_keeps_empty W gather (c : call) (s : state) :
  active_connections s = new_manager ->
  active_connections (fst (perform W gather c s)) = new_manager.
Proof.
  intros Hreg.
  destruct (perform_registry W gather c s) as [E|[k E]]; rewrite E, Hreg;
    reflexivity.
Qed.

(** X13.  On a manager as its constructor leaves it, the registry stays
    empty and no frame is ever written to a client, whatever functions of
    the module are called and whatever the collaborator queues. *)
Theorem fresh_manager_writes_nothing W gather (calls : list call)
    (s : state) :
  active_connections s = new_manager ->
  active_connections (run W gather calls s) = new_manager
  /\ frames (wire (run W gather calls s)) = frames (wire s).
Proof.
  revert s. induction calls as [|c calls IH]; intros s Hreg; simpl;
    [split; [exact Hreg|reflexivity]|].
  destruct (IH (fst (perform W gather c s))
               (perform_keeps_empty W gather c s Hreg)) as [H1 H2].
  split; [exact H1|].
  rewrite H2. apply perform_frames_unregistered. exact Hreg.
Qed.

Lemma fresh_manager_writes_nothing_witness :
  let calls := [Collaborator [("alice", [JText "ping"])];
                CallEndpoint 7 "alice" [inr (JText "hi")] 5;
                CallCheckMessages 5 (KStr "alice");
                CallSendPersonalMessage (JText "hi") (KStr "alice");
                CallBroadcast (JText "news")] in
  active_connections (run healthy (fun a _ => a) calls fresh) = new_manager
  /\ frames (wire (run healthy (fun a _ => a) calls fresh)) = [].
Proof.
  apply (fresh_manager_writes_nothing healthy (fun a _ => a)
           [Collaborator [("alice", [JText "ping"])];
            CallEndpoint 7 "alice" [inr (JText "hi")] 5;
            CallCheckMessages 5 (KStr "alice");
            CallSendPersonalMessage (JText "hi") (KStr "alice");
            CallBroadcast (JText "news")]
           fresh).
  reflexivity.
Defined.
